(** * Select item (ariakit [select/select-item.tsx])

    A shallow embedding of the [useSelectItem] hook: the role resolver
    [getItemRole], the item descriptor builder [getItem], the click
    dispatcher [onClick], the selection flag [isSelected] and the
    hover guard [focusOnHoverGuard] (the [focusOnHover] option handed to the
    composite hover hook), followed by the properties stated about them.

    Conventions of the embedding.
    - An optional property ([value?: string], [state?: SelectState], ...)
      is an [option]; [None] is JavaScript's [undefined].
    - Objects used as records of arbitrary fields (the item descriptor) are
      finite maps from property names to values.
    - Callbacks supplied by the caller may read and mutate whatever they can
      reach (the event object included).  Everything mutable is gathered in
      an abstract [Heap]; a callback is a function on it.  Callbacks are
      assumed to return normally.
    - The calls the dispatcher makes are recorded, in order, in a [trace]
      kept next to the heap, which callbacks cannot touch. *)

From stdpp Require Import base strings gmap list.
From Stdlib Require Import ZArith.

(** ** JavaScript values *)

Inductive JsValue :=
| JsUndefined
| JsNull
| JsBoolean (b : bool)
| JsNumber (n : Z)
| JsString (s : string).

#[global] Instance JsValue_eq_dec : EqDecision JsValue.
Proof. solve_decision. Defined.

(** [v != null]: false exactly for [undefined] and [null]. *)
Definition notNullish (v : JsValue) : bool :=
  match v with
  | JsUndefined | JsNull => false
  | _ => true
  end.

(** [a === b] on the values above. *)
Definition strictEquals (a b : JsValue) : bool := bool_decide (a = b).

(** Truthiness of a value in a condition. *)
Definition truthy (v : JsValue) : bool :=
  match v with
  | JsUndefined | JsNull => false
  | JsBoolean b => b
  | JsNumber n => negb (n =? 0)%Z
  | JsString s => negb (String.eqb s "")
  end.

(** An optional string property as a value. *)
Definition ofOptString (v : option string) : JsValue :=
  match v with
  | Some s => JsString s
  | None => JsUndefined
  end.

(** An optional boolean property as a value. *)
Definition ofOptBool (v : option bool) : JsValue :=
  match v with
  | Some b => JsBoolean b
  | None => JsUndefined
  end.

(** An object with arbitrary fields; reading a missing field gives
    [undefined]. *)
Abbreviation Item := (gmap string JsValue).

Definition readField (o : Item) (k : string) : JsValue :=
  default JsUndefined (o !! k).

(** ** Popup roles

    [AriaHasPopup] is the declared result type of [getPopupRole]: the values
    of the [aria-haspopup] attribute. *)

Inductive AriaHasPopup :=
| HasPopupBoolean (b : bool)
| HasPopupFalse
| HasPopupTrue
| HasPopupMenu
| HasPopupListbox
| HasPopupTree
| HasPopupGrid
| HasPopupDialog.

(** The value as a property key. *)
Definition popupKey (r : AriaHasPopup) : string :=
  match r with
  | HasPopupBoolean true => "true"
  | HasPopupBoolean false => "false"
  | HasPopupFalse => "false"
  | HasPopupTrue => "true"
  | HasPopupMenu => "menu"
  | HasPopupListbox => "listbox"
  | HasPopupTree => "tree"
  | HasPopupGrid => "grid"
  | HasPopupDialog => "dialog"
  end.

(** [!popupRole] for an optional popup role: every string member is
    non-empty, so only [undefined] and the boolean [false] are falsy. *)
Definition popupFalsy (r : option AriaHasPopup) : bool :=
  match r with
  | None => true
  | Some (HasPopupBoolean b) => negb b
  | Some _ => false
  end.

Definition itemRoleByPopupRole : gmap string string :=
  <["listbox" := "option"]>
    (<["tree" := "treeitem"]>
       (<["grid" := "gridcell"]> ∅)).

(** ** The host environment

    What the hook takes from React and from [ariakit-utils]: DOM elements,
    mouse events, the mutable heap callbacks act on, the event's
    [defaultPrevented] flag as currently stored in the heap, and
    [getPopupRole], which reads the configured role of the popup element
    (absent when there is no element or no valid popup role). *)

Class Host := {
  HTMLElement : Type;
  MouseEvent : Type;
  Heap : Type;
  defaultPrevented : MouseEvent -> Heap -> bool;
  getPopupRole : option HTMLElement -> option AriaHasPopup
}.

Section Model.
Context `{Host}.

(** ** Role resolver *)

Definition getItemRole (contentElement : option HTMLElement) : option string :=
  let popupRole := getPopupRole contentElement in
  if popupFalsy popupRole then None
  else
    match popupRole with
    | Some r => itemRoleByPopupRole !! popupKey r
    | None => None
    end.

(** ** Shared select state

    The fields of [SelectState] the hook subscribes to.  The object is the
    snapshot of one render: [value] and [mounted] are plain data, and the two
    methods act on the heap. *)

Record SelectState := {
  state_value : string;
  state_setValue : string -> Heap -> Heap;
  state_hide : Heap -> Heap;
  state_contentElement : option HTMLElement;
  state_mounted : bool
}.

(** ** Effects: a state monad over the heap and the call trace *)

Inductive Call :=
| CallOnClickProp
| CallSetValue (v : string)
| CallHide.

#[global] Instance Call_eq_dec : EqDecision Call.
Proof. solve_decision. Defined.

Record World := { heap : Heap; trace : list Call }.

Definition Eff (A : Type) : Type := World -> A * World.

Definition ret {A} (a : A) : Eff A := fun w => (a, w).

Definition bind {A B} (c : Eff A) (k : A -> Eff B) : Eff B :=
  fun w => let (a, w') := c w in k a w'.

Notation "'let*' x ':=' c 'in' k" := (bind c (fun x => k))
  (at level 10, x name, c at level 100, k at level 200, only parsing).
Notation "'let*' '_' ':=' c 'in' k" := (bind c (fun _ => k))
  (at level 10, c at level 100, k at level 200, only parsing).

(** Reading from the heap. *)
Definition read {A} (f : Heap -> A) : Eff A := fun w => (f (heap w), w).

(** Running a caller's callback: it acts on the heap only. *)
Definition callback {A} (f : Heap -> A * Heap) : Eff A :=
  fun w => let (a, h) := f (heap w) in (a, {| heap := h; trace := trace w |}).

(** A call made by the dispatcher: recorded, then performed. *)
Definition invoke (c : Call) (f : Heap -> Heap) : Eff unit :=
  fun w => (tt, {| heap := f (heap w); trace := trace w ++ [c] |}).

(** [state?.method(...)]: nothing happens when [state] is absent. *)
Definition optCall (state : option SelectState) (m : SelectState -> Eff unit)
  : Eff unit :=
  match state with
  | Some s => m s
  | None => ret tt
  end.

(** ** Options of the hook *)

(** [BooleanOrCallback<MouseEvent>]: a boolean, or a function of the event
    returning one. *)
Inductive BooleanOrCallback :=
| Boolean (b : bool)
| Callback (f : MouseEvent -> Heap -> bool * Heap).

(** [props_role] and [props_children] are the [role] and [children] keys of
    the remaining properties, which the hook spreads over the ones it
    derives: [None] when the caller passes no such key, [Some v] when the key
    is there, [v] being [None] for a key holding [undefined]. *)
Record SelectItemOptions := {
  state : option SelectState;
  value : option string;
  getItemProp : option (Item -> Item);
  hideOnClick : option BooleanOrCallback;
  setValueOnClick : option BooleanOrCallback;
  focusOnHover : option BooleanOrCallback;
  props_disabled : option bool;
  props_onClick : option (MouseEvent -> Heap -> Heap);
  props_role : option (option string);
  props_children : option (option string)
}.

(** Modelled from the spec: [useStore] of [ariakit-utils/store] is not part
    of this file.  The explicit state reference is used when given and the
    ambient context of an ancestor otherwise; the result is absent when
    neither exists. *)
Definition useStore (state context : option SelectState) : option SelectState :=
  match state with
  | Some s => Some s
  | None => context
  end.

(** Modelled from the spec: [useEventCallback] of [ariakit-utils/hooks] is not
    part of this file.  It wraps the caller's handler; calling the wrapper
    calls the handler when there is one and does nothing otherwise. *)
Definition useEventCallback (handler : option (MouseEvent -> Heap -> Heap))
  : MouseEvent -> Eff unit :=
  fun event =>
    match handler with
    | Some f => invoke CallOnClickProp (f event)
    | None => ret tt
    end.

(** Modelled from the spec: [useBooleanEventCallback] of [ariakit-utils/hooks]
    is not part of this file.  The option is a static boolean or a predicate
    over the triggering event, evaluated afresh at each event. *)
Definition useBooleanEventCallback (booleanOrCallback : BooleanOrCallback)
  : MouseEvent -> Eff bool :=
  fun event =>
    match booleanOrCallback with
    | Boolean b => ret b
    | Callback f => callback (f event)
    end.

(** A default parameter value: used when the argument is [undefined]. *)
Definition withDefault {A} (arg : option A) (d : A) : A :=
  match arg with
  | Some a => a
  | None => d
  end.

Section Hook.
Variable options : SelectItemOptions.
Variable context : option SelectState.

(** The destructured parameters with their defaults. *)
Definition hideOnClick_ : BooleanOrCallback :=
  withDefault (hideOnClick options)
    (Boolean (notNullish (ofOptString (value options)))).

Definition setValueOnClick_ : BooleanOrCallback :=
  withDefault (setValueOnClick options)
    (Boolean (notNullish (ofOptString (value options)))).

Definition focusOnHover_ : BooleanOrCallback :=
  withDefault (focusOnHover options) (Boolean true).

(** [state = useStore(state || SelectContext, ...)] *)
Definition state_ : option SelectState := useStore (state options) context.

(** *** Item descriptor builder *)

Definition getItem (item : Item) : Item :=
  let nextItem :=
    <["value" :=
        if truthy (ofOptBool (props_disabled options)) then JsUndefined
        else ofOptString (value options)]> item in
  match getItemProp options with
  | Some f => f nextItem
  | None => nextItem
  end.

(** *** Click dispatcher *)

Definition onClickProp : MouseEvent -> Eff unit :=
  useEventCallback (props_onClick options).

Definition setValueOnClickProp : MouseEvent -> Eff bool :=
  useBooleanEventCallback setValueOnClick_.

Definition hideOnClickProp : MouseEvent -> Eff bool :=
  useBooleanEventCallback hideOnClick_.

(** The first conditional of the handler:
    [if (setValueOnClickProp(event) && value != null) state?.setValue(value)]. *)
Definition onClick_setValue (event : MouseEvent) : Eff unit :=
  let* b := setValueOnClickProp event in
  if b && notNullish (ofOptString (value options)) then
    match value options with
    | Some v =>
        optCall state_ (fun s => invoke (CallSetValue v) (state_setValue s v))
    | None => ret tt
    end
  else ret tt.

(** The second conditional of the handler:
    [if (hideOnClickProp(event)) state?.hide()]. *)
Definition onClick_hide (event : MouseEvent) : Eff unit :=
  let* b := hideOnClickProp event in
  if b then optCall state_ (fun s => invoke CallHide (state_hide s))
  else ret tt.

Definition onClick (event : MouseEvent) : Eff unit :=
  let* _ := onClickProp event in
  let* prevented := read (defaultPrevented event) in
  if prevented then ret tt
  else
    let* _ := onClick_setValue event in
    onClick_hide event.

(** *** Selection flag *)

Definition isSelected : bool :=
  notNullish (ofOptString (value options))
  && strictEquals (ofOptString (value options))
                  (ofOptString (state_value <$> state_)).

(** *** Hover guard handed to the composite hover behaviour *)

Definition focusOnHoverProp : MouseEvent -> Eff bool :=
  useBooleanEventCallback focusOnHover_.

Definition focusOnHoverGuard (event : MouseEvent) : Eff bool :=
  let* b := focusOnHoverProp event in
  if negb b then ret false
  else ret (truthy (ofOptBool (state_mounted <$> state_))).

(** *** The hook

    What [useSelectItem] hands on: the properties it sets itself (a [role]
    or [children] key of the caller overwrites the derived one, even when it
    holds [undefined]; [onClick] is always the dispatcher), the value of the
    checked context it provides, and the two options it passes to the
    composite item and composite hover hooks. *)

Record SelectItemResult := {
  result_role : option string;
  result_children : option string;
  result_onClick : MouseEvent -> Eff unit;
  result_checked : bool;
  result_getItem : Item -> Item;
  result_focusOnHover : MouseEvent -> Eff bool
}.

Definition useSelectItem : SelectItemResult :=
  {| result_role :=
       match props_role options with
       | Some r => r
       | None => getItemRole (state_ ≫= state_contentElement)
       end;
     result_children :=
       match props_children options with
       | Some c => c
       | None => value options
       end;
     result_onClick := onClick;
     result_checked := isSelected;
     result_getItem := getItem;
     result_focusOnHover := focusOnHoverGuard |}.

End Hook.

(** Modelled from the spec: the generic focus-item-on-hover behaviour
    ([useCompositeHover] of [composite/composite-hover]) is not part of this
    file.  On a hover event it consults the [focusOnHover] option it was given
    and activates the item only if the option holds for the event; [ready]
    stands for the conditions of its own that come before.  The result tells
    whether the item was activated. *)
Definition compositeHover (ready : MouseEvent -> Heap -> bool)
  (focusOnHover : MouseEvent -> Eff bool) (event : MouseEvent) : Eff bool :=
  let* r := read (ready event) in
  if negb r then ret false
  else focusOnHover event.

(** ** Observing one click

    The dispatcher run on a heap with an empty trace; the heap the caller's
    handler leaves, and the trace entries it accounts for. *)

Definition click (options : SelectItemOptions) (context : option SelectState)
  (event : MouseEvent) (h : Heap) : World :=
  snd (onClick options context event {| heap := h; trace := [] |}).

Definition afterHandler (options : SelectItemOptions) (event : MouseEvent)
  (h : Heap) : Heap :=
  match props_onClick options with
  | Some f => f event h
  | None => h
  end.

Definition handlerCalls (options : SelectItemOptions) : list Call :=
  match props_onClick options with
  | Some _ => [CallOnClickProp]
  | None => []
  end.

(** The world in which the [hideOnClick] option of a click is consulted: the
    handler has run and the first conditional is done. *)
Definition beforeHide (options : SelectItemOptions)
  (context : option SelectState) (event : MouseEvent) (h : Heap) : World :=
  snd ((let* _ := onClickProp options event in
        onClick_setValue options context event)
         {| heap := h; trace := [] |}).

(** The same options with another [disabled] flag. *)
Definition withDisabled (d : option bool) (o : SelectItemOptions)
  : SelectItemOptions :=
  {| state := state o;
     value := value o;
     getItemProp := getItemProp o;
     hideOnClick := hideOnClick o;
     setValueOnClick := setValueOnClick o;
     focusOnHover := focusOnHover o;
     props_disabled := d;
     props_onClick := props_onClick o;
     props_role := props_role o;
     props_children := props_children o |}.

End Model.

(** ** A concrete host and a few items *)

Module Sample.

(** The heap holds the event's flag, the select's value and whether the popup
    is open; an element is its valid popup role, if any. *)
Record mem := { prevented : bool; selected : string; open : bool }.

Definition host : Host :=
  {| HTMLElement := AriaHasPopup;
     MouseEvent := unit;
     Heap := mem;
     defaultPrevented := fun _ h => prevented h;
     getPopupRole := fun el => el |}.

#[local] Existing Instance host.

Definition h0 : mem := {| prevented := false; selected := ""; open := true |}.

Definition select (current : string) : SelectState :=
  {| state_value := current;
     state_setValue := fun v h =>
       {| prevented := prevented h; selected := v; open := open h |};
     state_hide := fun h =>
       {| prevented := prevented h; selected := selected h; open := false |};
     state_contentElement := Some HasPopupListbox;
     state_mounted := true |}.

Definition closed (current : string) : SelectState :=
  {| state_value := current;
     state_setValue := state_setValue (select current);
     state_hide := state_hide (select current);
     state_contentElement := Some HasPopupListbox;
     state_mounted := false |}.

Definition preventDefault : MouseEvent -> Heap -> Heap :=
  fun _ h => {| prevented := true; selected := selected h; open := open h |}.

Definition item (v : option string) (st : option SelectState)
  (handler : option (MouseEvent -> Heap -> Heap)) : SelectItemOptions :=
  {| state := st;
     value := v;
     getItemProp := None;
     hideOnClick := None;
     setValueOnClick := None;
     focusOnHover := None;
     props_disabled := Some false;
     props_onClick := handler;
     props_role := None;
     props_children := None |}.

Definition apple : SelectItemOptions :=
  item (Some "Apple") (Some (select "Orange")) None.

Definition cancelled : SelectItemOptions :=
  item (Some "Apple") (Some (select "Orange")) (Some preventDefault).

Definition action : SelectItemOptions :=
  item None (Some (select "Orange")) None.

Definition unbound : SelectItemOptions :=
  item (Some "Apple") None None.

(** An action row that closes the popup: no value, [hideOnClick] forced. *)
Definition closer : SelectItemOptions :=
  {| state := Some (select "Orange");
     value := None;
     getItemProp := None;
     hideOnClick := Some (Boolean true);
     setValueOnClick := None;
     focusOnHover := None;
     props_disabled := None;
     props_onClick := None;
     props_role := None;
     props_children := None |}.

(** A disabled item holding the selected value, with a descriptor transform
    that tags the record. *)
Definition tag (it : Item) : Item := <["tagged" := JsBoolean true]> it.

Definition disabledOrange : SelectItemOptions :=
  {| state := Some (select "Orange");
     value := Some "Orange";
     getItemProp := Some tag;
     hideOnClick := None;
     setValueOnClick := None;
     focusOnHover := None;
     props_disabled := Some true;
     props_onClick := None;
     props_role := None;
     props_children := None |}.

Definition orange : SelectItemOptions :=
  item (Some "Orange") (Some (select "Orange")) None.

(** An item of a select whose popup is not mounted. *)
Definition stale : SelectItemOptions :=
  item (Some "Apple") (Some (closed "Orange")) None.

Definition base : Item := <["id" := JsString "item-1"]> ∅.

(** An item that selects its value but leaves the popup open. *)
Definition sticky : SelectItemOptions :=
  {| state := Some (select "Orange");
     value := Some "Apple";
     getItemProp := None;
     hideOnClick := Some (Boolean false);
     setValueOnClick := Some (Boolean true);
     focusOnHover := None;
     props_disabled := None;
     props_onClick := None;
     props_role := None;
     props_children := None |}.

(** Callbacks that look at the heap: one closes the popup as a side effect
    and agrees, one agrees only once the select holds ["Apple"]. *)
Definition closing : MouseEvent -> Heap -> bool * Heap :=
  fun _ h => (true, {| prevented := prevented h; selected := selected h;
                       open := false |}).

Definition onceApple : MouseEvent -> Heap -> bool * Heap :=
  fun _ h => (String.eqb (selected h) "Apple", h).

(** An action row whose [setValueOnClick] is the callback [closing]. *)
Definition eager : SelectItemOptions :=
  {| state := Some (select "Orange");
     value := None;
     getItemProp := None;
     hideOnClick := None;
     setValueOnClick := Some (Callback closing);
     focusOnHover := None;
     props_disabled := None;
     props_onClick := None;
     props_role := None;
     props_children := None |}.

(** An item that hides only once its value is the selected one. *)
Definition confirming : SelectItemOptions :=
  {| state := Some (select "Orange");
     value := Some "Apple";
     getItemProp := None;
     hideOnClick := Some (Callback onceApple);
     setValueOnClick := None;
     focusOnHover := None;
     props_disabled := None;
     props_onClick := None;
     props_role := None;
     props_children := None |}.




(** An item whose caller passes a [role] key and a [children] key that both
    hold [undefined]. *)
Definition bare : SelectItemOptions :=
  {| state := Some (select "Orange");
     value := Some "Apple";
     getItemProp := None;
     hideOnClick := None;
     setValueOnClick := None;
     focusOnHover := None;
     props_disabled := None;
     props_onClick := None;
     props_role := Some None;
     props_children := Some None |}.

(** A heap in which the event is already default-prevented. *)
Definition h1 : mem := {| prevented := true; selected := ""; open := true |}.

Definition world (h : mem) (t : list Call) : World :=
  {| heap := h; trace := t |}.

Definition mk (p : bool) (v : string) (o : bool) : mem :=
  {| prevented := p; selected := v; open := o |}.

End Sample.

(** ** Small runs of the model *)

Example sample_roles :
  getItemRole (H := Sample.host) (Some HasPopupListbox) = Some "option"
  /\ getItemRole (H := Sample.host) (Some HasPopupTree) = Some "treeitem"
  /\ getItemRole (H := Sample.host) (Some HasPopupGrid) = Some "gridcell"
  /\ getItemRole (H := Sample.host) (Some HasPopupMenu) = None
  /\ getItemRole (H := Sample.host) (Some (HasPopupBoolean true)) = None
  /\ getItemRole (H := Sample.host) None = None.
Proof. repeat split. Qed.

Example sample_descriptor :
  getItem (H := Sample.host) Sample.orange Sample.base
  = <["value" := JsString "Orange"]> Sample.base
  /\ getItem (H := Sample.host) Sample.disabledOrange Sample.base
     = <["tagged" := JsBoolean true]>
         (<["value" := JsUndefined]> Sample.base).
Proof. split; reflexivity. Qed.

Example sample_click_cancelled :
  click (H := Sample.host) Sample.cancelled None tt Sample.h0
  = Sample.world (Sample.mk true "" true) [CallOnClickProp].
Proof. reflexivity. Qed.

Example sample_click_unbound :
  click (H := Sample.host) Sample.unbound None tt Sample.h0
  = Sample.world Sample.h0 [].
Proof. reflexivity. Qed.

Example sample_click_apple :
  click (H := Sample.host) Sample.apple None tt Sample.h0
  = Sample.world (Sample.mk false "Apple" false) [CallSetValue "Apple"; CallHide].
Proof. reflexivity. Qed.

(** ** Properties *)

Section Properties.
Context `{Host}.

Implicit Types (options : SelectItemOptions) (context : option SelectState).
Implicit Types (event : MouseEvent) (h : Heap) (s : SelectState).

(** Unfolds one run of the dispatcher down to the heap and the trace. *)
Ltac run_click :=
  unfold click, beforeHide, onClick, onClick_hide, onClick_setValue,
    onClickProp, setValueOnClickProp, hideOnClickProp, hideOnClick_,
    setValueOnClick_, useBooleanEventCallback, useEventCallback,
    afterHandler, handlerCalls, withDefault, optCall, invoke, callback,
    read, bind, ret in *;
  simpl in *.

(** *** Helper facts *)

Lemma notNullish_ofOptString (v : option string) :
  notNullish (ofOptString v) = bool_decide (is_Some v).
Proof.
  destruct v as [x|]; unfold ofOptString, notNullish; symmetry.
  - apply bool_decide_eq_true_2. eauto.
  - apply bool_decide_eq_false_2. intros [x Hx]. discriminate.
Qed.

(** The handler wrapper alone: the heap the handler leaves, one trace entry
    if there is a handler. *)
Lemma onClickProp_run options event (w : World) :
  onClickProp options event w
  = (tt, {| heap := afterHandler options event (heap w);
            trace := trace w ++ handlerCalls options |}).
Proof.
  destruct w as [h t]. run_click.
  destruct (props_onClick options); simpl; [reflexivity|].
  by rewrite app_nil_r.
Qed.

(** An option evaluated for an event leaves the trace as it was. *)
Lemma useBooleanEventCallback_trace (b : BooleanOrCallback) event (w : World) :
  trace (snd (useBooleanEventCallback b event w)) = trace w.
Proof.
  destruct b as [b|f]; simpl; [reflexivity|].
  unfold callback. by destruct (f event (heap w)).
Qed.

(** The trace entries of the two conditionals of the handler. *)
Lemma onClick_setValue_trace options context event (w : World) :
  trace (snd (onClick_setValue options context event w))
  = trace w ++
    (if fst (setValueOnClickProp options event w) then
       match value options, state_ options context with
       | Some v, Some _ => [CallSetValue v]
       | _, _ => []
       end
     else []).
Proof.
  unfold onClick_setValue, bind, setValueOnClickProp.
  pose proof (useBooleanEventCallback_trace
                (setValueOnClick_ options) event w) as T.
  destruct (useBooleanEventCallback (setValueOnClick_ options) event w)
    as [b w']; simpl in *.
  destruct b, (value options) as [v|], (state_ options context) as [s|];
    simpl; rewrite ?T, ?app_nil_r; reflexivity.
Qed.

Lemma onClick_hide_trace options context event (w : World) :
  trace (snd (onClick_hide options context event w))
  = trace w ++
    (if fst (hideOnClickProp options event w) then
       match state_ options context with
       | Some _ => [CallHide]
       | None => []
       end
     else []).
Proof.
  unfold onClick_hide, bind, hideOnClickProp.
  pose proof (useBooleanEventCallback_trace
                (hideOnClick_ options) event w) as T.
  destruct (useBooleanEventCallback (hideOnClick_ options) event w)
    as [b w']; simpl in *.
  destruct b, (state_ options context) as [s|];
    simpl; rewrite ?T, ?app_nil_r; reflexivity.
Qed.

(** One click, split at the points where the event flag and the
    [hideOnClick] option are read. *)
Lemma click_split options context event h :
  click options context event h
  = if defaultPrevented event (afterHandler options event h) then
      {| heap := afterHandler options event h; trace := handlerCalls options |}
    else
      snd (onClick_hide options context event
             (beforeHide options context event h)).
Proof.
  unfold click, beforeHide, onClick, bind. rewrite onClickProp_run. simpl.
  unfold read, ret. simpl.
  destruct (defaultPrevented event _); [reflexivity|].
  by destruct (onClick_setValue options context event _).
Qed.

Lemma beforeHide_trace options context event h :
  exists calls,
    trace (beforeHide options context event h) = handlerCalls options ++ calls
    /\ forall c, c ∈ calls ->
         is_Some (state_ options context)
         /\ exists v, value options = Some v /\ c = CallSetValue v.
Proof.
  unfold beforeHide, bind. rewrite onClickProp_run. simpl.
  rewrite onClick_setValue_trace. simpl.
  eexists; split; [reflexivity|].
  intros c Hc.
  destruct (fst _); [|by apply elem_of_nil in Hc].
  destruct (value options) as [v|]; [|by apply elem_of_nil in Hc].
  destruct (state_ options context) as [s|]; [|by apply elem_of_nil in Hc].
  apply list_elem_of_singleton in Hc. subst c. eauto.
Qed.


(** C2: when the caller supplies a click handler it runs first, and if it
    leaves the event default-prevented then nothing else happens: neither
    [setValue] nor [hide] is called and the two options are not even
    consulted, whatever they are. *)
Theorem prevented_click_aborts options context event h
    (f : MouseEvent -> Heap -> Heap) :
  props_onClick options = Some f ->
  head (trace (click options context event h)) = Some CallOnClickProp
  /\ (defaultPrevented event (f event h) = true ->
      click options context event h
      = {| heap := f event h; trace := [CallOnClickProp] |}).
Proof.
  intros Hf. rewrite click_split. split.
  - destruct (defaultPrevented event _).
    + simpl. unfold handlerCalls. by rewrite Hf.
    + rewrite onClick_hide_trace.
      destruct (beforeHide_trace options context event h) as (calls & -> & _).
      unfold handlerCalls. by rewrite Hf.
  - intros Hprev. unfold afterHandler, handlerCalls. rewrite Hf.
    by rewrite Hprev.
Qed.

(** C3: the item role is a function of the popup role alone: [option] for
    [listbox], [treeitem] for [tree], [gridcell] for [grid], and no role for
    any other popup role and for an absent one. *)
Theorem getItemRole_table (contentElement : option HTMLElement) :
  getItemRole contentElement
  = match getPopupRole contentElement with
    | Some HasPopupListbox => Some "option"
    | Some HasPopupTree => Some "treeitem"
    | Some HasPopupGrid => Some "gridcell"
    | _ => None
    end.
Proof.
  unfold getItemRole.
  destruct (getPopupRole contentElement) as [[[]| | | | | | |]|];
    reflexivity.
Qed.

(** C4: the selection flag is true exactly when the configured value is
    present and equal to the value of the select state, and false whenever
    the configured value is absent, whatever the state holds. *)
Theorem isSelected_iff options context :
  (isSelected options context = true
   <-> exists v, value options = Some v
                 /\ state_value <$> state_ options context = Some v)
  /\ (value options = None -> isSelected options context = false)
  /\ (forall s, state_ options context = Some s ->
        (isSelected options context = true
         <-> value options = Some (state_value s))).
Proof.
  unfold isSelected, strictEquals. split; [split|split].
  - intros Hsel. apply andb_true_iff in Hsel as [Hv Heq].
    apply bool_decide_eq_true_1 in Heq.
    destruct (value options) as [v|]; [|discriminate].
    exists v. split; [reflexivity|].
    destruct (state_value <$> state_ options context) as [x|];
      simpl in Heq; congruence.
  - intros (v & -> & ->). simpl. by apply bool_decide_eq_true_2.
  - intros ->. reflexivity.
  - intros s ->. simpl. destruct (value options) as [v|]; simpl.
    + split.
      * intros Hb. apply bool_decide_eq_true_1 in Hb. congruence.
      * intros [= ->]. by apply bool_decide_eq_true_2.
    + split; discriminate.
Qed.

(** C5: the descriptor builder hands on the base record with its [value]
    field set to the configured value, or to [undefined] when the item is
    disabled, and every other field unchanged; a custom transform, if given,
    is applied to that adjusted record and its result is the descriptor. *)
Theorem getItem_adjusts options (item : Item) :
  exists adjusted : Item,
    (props_disabled options = Some true ->
     readField adjusted "value" = JsUndefined)
    /\ (props_disabled options <> Some true ->
        readField adjusted "value" = ofOptString (value options))
    /\ (forall k : string, k <> "value" -> adjusted !! k = item !! k)
    /\ getItem options item
       = match getItemProp options with
         | Some f => f adjusted
         | None => adjusted
         end.
Proof.
  unfold getItem.
  eexists. split; [|split; [|split; [|reflexivity]]].
  - intros ->. unfold readField. by rewrite lookup_insert_eq.
  - intros Hd. unfold readField. rewrite lookup_insert_eq. simpl.
    destruct (props_disabled options) as [[]|]; simpl; congruence.
  - intros k Hk. by rewrite lookup_insert_ne.
Qed.

(** C6: when neither click option is given, both default to whether a value
    is configured; so a click on an item without a value calls neither
    [setValue] nor [hide]: only the caller's handler has run. *)
Theorem action_item_click_is_inert options context event h :
  setValueOnClick options = None ->
  hideOnClick options = None ->
  setValueOnClick_ options = Boolean (bool_decide (is_Some (value options)))
  /\ hideOnClick_ options = Boolean (bool_decide (is_Some (value options)))
  /\ (value options = None ->
      click options context event h
      = {| heap := afterHandler options event h;
           trace := handlerCalls options |}).
Proof.
  intros Hset Hhide.
  unfold setValueOnClick_, hideOnClick_. rewrite Hset, Hhide. simpl.
  rewrite notNullish_ofOptString. split; [reflexivity|split; [reflexivity|]].
  intros Hv. run_click. rewrite Hset, Hhide, Hv. simpl.
  destruct (props_onClick options) as [f|]; simpl;
    destruct (defaultPrevented event _); reflexivity.
Qed.

(** C7: without a bound select state a click records nothing but the
    caller's handler: [setValue] and [hide] are skipped and the dispatcher
    still returns; conversely any other call in the trace shows that a state
    was bound. *)
Theorem unbound_state_skips_calls options context event h :
  (state_ options context = None ->
   trace (click options context event h) = handlerCalls options)
  /\ (forall c, c ∈ trace (click options context event h) ->
        c <> CallOnClickProp -> is_Some (state_ options context)).
Proof.
  assert (Hh : forall c, c ∈ handlerCalls options -> c = CallOnClickProp).
  { unfold handlerCalls. intros c Hc.
    destruct (props_onClick options); [|by apply elem_of_nil in Hc].
    by apply list_elem_of_singleton in Hc. }
  rewrite click_split.
  destruct (beforeHide_trace options context event h) as (calls & Ht & Hcalls).
  split.
  - intros Hs. destruct (defaultPrevented event _); [reflexivity|].
    rewrite onClick_hide_trace, Ht, Hs.
    destruct calls as [|c calls].
    + destruct (fst _); by rewrite !app_nil_r.
    + destruct (Hcalls c) as [[s Hs'] _]; [by left|congruence].
  - intros c Hc Hne. destruct (defaultPrevented event _).
    + simpl in Hc. by apply Hh in Hc.
    + rewrite onClick_hide_trace, Ht in Hc.
      apply elem_of_app in Hc as [Hc|Hc].
      * apply elem_of_app in Hc as [Hc|Hc]; [by apply Hh in Hc|].
        by apply Hcalls in Hc as [? _].
      * destruct (fst _); [|by apply elem_of_nil in Hc].
        destruct (state_ options context); [eauto|by apply elem_of_nil in Hc].
Qed.

(** C8: the guard handed to the hover behaviour holds exactly when the
    configured [focusOnHover] option holds for the event and the popup is
    mounted; so the hover behaviour activates the item only then, and never
    while the popup is not mounted. *)
Theorem hover_needs_mounted options context event (w : World)
    (ready : MouseEvent -> Heap -> bool) :
  let mounted :=
    match state_ options context with
    | Some s => state_mounted s
    | None => false
    end in
  focusOnHoverGuard options context event w
  = (fst (focusOnHoverProp options event w) && mounted,
     snd (focusOnHoverProp options event w))
  /\ (fst (compositeHover ready (focusOnHoverGuard options context) event w)
      = true ->
      fst (focusOnHoverProp options event w) = true /\ mounted = true)
  /\ (mounted = false ->
      fst (compositeHover ready (focusOnHoverGuard options context) event w)
      = false).
Proof.
  intros mounted.
  assert (Hg : focusOnHoverGuard options context event w
               = (fst (focusOnHoverProp options event w) && mounted,
                  snd (focusOnHoverProp options event w))).
  { unfold focusOnHoverGuard, bind, ret, mounted.
    destruct (focusOnHoverProp options event w) as [b w']. simpl.
    destruct b; simpl; [|reflexivity].
    by destruct (state_ options context). }
  split; [exact Hg|].
  assert (Hc : compositeHover ready (focusOnHoverGuard options context) event w
               = if ready event (heap w)
                 then focusOnHoverGuard options context event w
                 else (false, w)).
  { unfold compositeHover, bind, read, ret.
    by destruct (ready event (heap w)). }
  rewrite Hc, Hg.
  destruct (ready event (heap w)); simpl; split.
  - intros Hb. by apply andb_true_iff in Hb.
  - intros ->. apply andb_false_r.
  - discriminate.
  - reflexivity.
Qed.

(** C9: on a click that is not default-prevented, with a select state bound,
    [hide] is called exactly when the [hideOnClick] option holds for the
    event, whether or not [setValue] was called before; in particular an
    item without a value whose [hideOnClick] is set to [true] hides the
    popup and selects nothing. *)
Theorem hide_follows_hideOnClick options context event h s :
  state_ options context = Some s ->
  defaultPrevented event (afterHandler options event h) = false ->
  let w := beforeHide options context event h in
  (CallHide ∉ trace w)
  /\ trace (click options context event h)
     = trace w ++ (if fst (hideOnClickProp options event w) then [CallHide]
                   else [])
  /\ (CallHide ∈ trace (click options context event h)
      <-> fst (hideOnClickProp options event w) = true)
  /\ (value options = None -> hideOnClick options = Some (Boolean true) ->
      trace (click options context event h) = handlerCalls options ++ [CallHide]
      /\ heap (click options context event h) = state_hide s (heap w)).
Proof.
  intros Hs Hprev w.
  assert (Hw : CallHide ∉ trace w).
  { unfold w. destruct (beforeHide_trace options context event h)
      as (calls & -> & Hcalls).
    intros Hin. apply elem_of_app in Hin as [Hin|Hin].
    - unfold handlerCalls in Hin.
      destruct (props_onClick options); [|by apply elem_of_nil in Hin].
      by apply list_elem_of_singleton in Hin.
    - apply Hcalls in Hin as [_ (v & _ & Hv)]. discriminate. }
  assert (Ht : trace (click options context event h)
               = trace w ++ (if fst (hideOnClickProp options event w)
                             then [CallHide] else [])).
  { rewrite click_split, Hprev, onClick_hide_trace, Hs. reflexivity. }
  split; [exact Hw|split; [exact Ht|split; [split|intros Hv Hh; split]]].
  - rewrite Ht. intros Hin. apply elem_of_app in Hin as [Hin|Hin]; [done|].
    destruct (fst _); [reflexivity|by apply elem_of_nil in Hin].
  - intros Hb. rewrite Ht, Hb. apply elem_of_app. right. by left.
  - rewrite Ht. unfold hideOnClickProp, hideOnClick_. rewrite Hh. simpl.
    f_equal. unfold w, beforeHide, bind. rewrite onClickProp_run. simpl.
    rewrite onClick_setValue_trace. simpl. rewrite Hv.
    destruct (fst (setValueOnClickProp options event _)); apply app_nil_r.
  - rewrite click_split, Hprev. fold w.
    unfold onClick_hide, hideOnClickProp, hideOnClick_, bind. rewrite Hh, Hs.
    reflexivity.
Qed.

(** C10: the [disabled] flag plays no part in the selection flag.  A disabled
    item whose configured value is the select's value is still selected, and
    the checked context it provides says so, while the record its descriptor
    is built from has its [value] cleared. *)
Theorem disabled_item_still_selected options context s (v : string)
    (item : Item) :
  props_disabled options = Some true ->
  value options = Some v ->
  state_ options context = Some s ->
  state_value s = v ->
  isSelected options context = true
  /\ result_checked (useSelectItem options context) = true
  /\ (exists adjusted : Item,
        readField adjusted "value" = JsUndefined
        /\ getItem options item
           = match getItemProp options with
             | Some f => f adjusted
             | None => adjusted
             end)
  /\ (forall d, isSelected (withDisabled d options) context
                = isSelected options context).
Proof.
  intros Hd Hv Hs Hsv.
  assert (Hsel : isSelected options context = true).
  { unfold isSelected, strictEquals. rewrite Hv, Hs. simpl. rewrite Hsv.
    by apply bool_decide_eq_true_2. }
  split; [exact Hsel|split; [exact Hsel|split]].
  - unfold getItem. rewrite Hd. simpl. eexists. split; [|reflexivity].
    unfold readField. by rewrite lookup_insert_eq.
  - intros d. reflexivity.
Qed.

End Properties.

(** ** The properties at the sample items *)



Lemma prevented_click_aborts_witness :
  props_onClick (H := Sample.host) Sample.cancelled
  = Some Sample.preventDefault
  /\ head (trace (click (H := Sample.host) Sample.cancelled None tt Sample.h0))
     = Some CallOnClickProp
  /\ click (H := Sample.host) Sample.cancelled None tt Sample.h0
     = Sample.world (Sample.mk true "" true) [CallOnClickProp].
Proof.
  split; [reflexivity|].
  destruct (prevented_click_aborts (H := Sample.host) Sample.cancelled None tt
              Sample.h0 Sample.preventDefault eq_refl) as [Hfirst Habort].
  split; [exact Hfirst|exact (Habort eq_refl)].
Defined.

Lemma isSelected_iff_witness :
  isSelected (H := Sample.host) Sample.orange None = true
  /\ isSelected (H := Sample.host) Sample.action None = false.
Proof.
  split.
  - apply (proj1 (isSelected_iff (H := Sample.host) Sample.orange None)).
    exists "Orange". split; reflexivity.
  - apply (proj1 (proj2 (isSelected_iff (H := Sample.host) Sample.action None))).
    reflexivity.
Defined.

Lemma getItem_adjusts_witness :
  exists adjusted : Item,
    readField adjusted "value" = JsUndefined
    /\ adjusted !! "id" = Some (JsString "item-1")
    /\ getItem (H := Sample.host) Sample.disabledOrange Sample.base
       = Sample.tag adjusted.
Proof.
  destruct (getItem_adjusts (H := Sample.host) Sample.disabledOrange
              Sample.base) as (adjusted & Hdis & _ & Hrest & Hget).
  exists adjusted. split; [exact (Hdis eq_refl)|]. split; [|exact Hget].
  rewrite Hrest; [reflexivity|discriminate].
Defined.

Lemma action_item_click_is_inert_witness :
  value (H := Sample.host) Sample.action = None
  /\ click (H := Sample.host) Sample.action None tt Sample.h0
     = Sample.world Sample.h0 [].
Proof.
  split; [reflexivity|].
  destruct (action_item_click_is_inert (H := Sample.host) Sample.action None
              tt Sample.h0 eq_refl eq_refl) as (_ & _ & Hclick).
  exact (Hclick eq_refl).
Defined.

Lemma unbound_state_skips_calls_witness :
  state_ (H := Sample.host) Sample.unbound None = None
  /\ trace (click (H := Sample.host) Sample.unbound None tt Sample.h0) = [].
Proof.
  split; [reflexivity|].
  exact (proj1 (unbound_state_skips_calls (H := Sample.host) Sample.unbound
                  None tt Sample.h0) eq_refl).
Defined.

Lemma hover_needs_mounted_witness :
  fst (focusOnHoverProp (H := Sample.host) Sample.stale tt
         (Sample.world Sample.h0 [])) = true
  /\ fst (compositeHover (H := Sample.host) (fun _ _ => true)
            (focusOnHoverGuard Sample.stale None) tt
            (Sample.world Sample.h0 [])) = false.
Proof.
  split; [reflexivity|].
  destruct (hover_needs_mounted (H := Sample.host) Sample.stale None tt
              (Sample.world Sample.h0 []) (fun _ _ => true))
    as (_ & _ & Hoff).
  exact (Hoff eq_refl).
Defined.

Lemma hide_follows_hideOnClick_witness :
  value (H := Sample.host) Sample.closer = None
  /\ trace (click (H := Sample.host) Sample.closer None tt Sample.h0)
     = [CallHide]
  /\ heap (click (H := Sample.host) Sample.closer None tt Sample.h0)
     = Sample.mk false "" false.
Proof.
  split; [reflexivity|].
  destruct (hide_follows_hideOnClick (H := Sample.host) Sample.closer None tt
              Sample.h0 (Sample.select "Orange") eq_refl eq_refl)
    as (_ & _ & _ & Hforced).
  exact (Hforced eq_refl eq_refl).
Defined.

Lemma disabled_item_still_selected_witness :
  props_disabled (H := Sample.host) Sample.disabledOrange = Some true
  /\ isSelected (H := Sample.host) Sample.disabledOrange None = true
  /\ result_checked (useSelectItem (H := Sample.host) Sample.disabledOrange None)
     = true.
Proof.
  split; [reflexivity|].
  destruct (disabled_item_still_selected (H := Sample.host)
              Sample.disabledOrange None (Sample.select "Orange") "Orange"
              Sample.base eq_refl eq_refl eq_refl eq_refl)
    as (Hsel & Hctx & _ & _).
  split; [exact Hsel|exact Hctx].
Defined.

(** ** Further properties of the hook *)

Section Further.
Context `{Host}.

Implicit Types (options : SelectItemOptions) (context : option SelectState).
Implicit Types (event : MouseEvent) (h : Heap) (s : SelectState).

(** *** Helper facts *)

(** The world after the handler and the first conditional. *)
Lemma beforeHide_run options context event h :
  beforeHide options context event h
  = snd (onClick_setValue options context event
           {| heap := afterHandler options event h;
              trace := handlerCalls options |}).
Proof.
  unfold beforeHide, bind. by rewrite onClickProp_run.
Qed.

(** The only entry the handler wrapper leaves. *)
Lemma handlerCalls_elem options (c : Call) :
  c ∈ handlerCalls options -> c = CallOnClickProp.
Proof.
  unfold handlerCalls. intros Hc.
  destruct (props_onClick options); [|by apply elem_of_nil in Hc].
  by apply list_elem_of_singleton in Hc.
Qed.

(** X1: the calls of one click are, in this order, the caller's handler (when
    there is one), at most one [setValue], which carries the configured
    value and needs a bound state, and at most one [hide]. *)
Theorem click_trace_shape options context event h :
  exists selects hides : list Call,
    trace (click options context event h)
    = handlerCalls options ++ selects ++ hides
    /\ (selects = []
        \/ exists v, value options = Some v
                     /\ is_Some (state_ options context)
                     /\ selects = [CallSetValue v])
    /\ (hides = [] \/ (is_Some (state_ options context) /\ hides = [CallHide])).
Proof.
  rewrite click_split.
  destruct (defaultPrevented event _).
  { exists [], []. simpl. rewrite app_nil_r. auto. }
  rewrite onClick_hide_trace, beforeHide_run, onClick_setValue_trace. simpl.
  eexists _, _. split; [by rewrite app_assoc|]. split.
  - destruct (fst (setValueOnClickProp options event _)); [|by left].
    destruct (value options) as [v|]; [|by left].
    destruct (state_ options context) as [s|]; [|by left].
    right. exists v. eauto.
  - destruct (fst (hideOnClickProp options event _)); [|by left].
    destruct (state_ options context) as [s|]; [|by left].
    right. eauto.
Qed.

(** X2: with static click options (given or defaulted), a bound state and
    an event that is not default-prevented, a click is fully determined:
    [setValue] is called iff [setValueOnClick] holds and a value is
    configured, then [hide] iff [hideOnClick] holds. *)
Theorem click_static_options options context event h s (a b : bool) :
  setValueOnClick_ options = Boolean a ->
  hideOnClick_ options = Boolean b ->
  state_ options context = Some s ->
  defaultPrevented event (afterHandler options event h) = false ->
  click options context event h
  = {| heap :=
         (if b then state_hide s else id)
           (match value options with
            | Some v => if a then state_setValue s v else id
            | None => id
            end (afterHandler options event h));
       trace :=
         handlerCalls options
         ++ match value options with
            | Some v => if a then [CallSetValue v] else []
            | None => []
            end
         ++ (if b then [CallHide] else []) |}.
Proof.
  intros Ha Hb Hs Hprev.
  rewrite click_split, Hprev, beforeHide_run.
  unfold onClick_hide, onClick_setValue, bind,
    setValueOnClickProp, hideOnClickProp.
  rewrite Ha, Hb, Hs. simpl.
  destruct a, b, (value options) as [v|]; simpl;
    rewrite ?app_nil_r, <- ?app_assoc; reflexivity.
Qed.

(** X3: an event that reaches an item without a click handler already
    default-prevented is ignored: no call is made, no option is consulted
    and the heap is left as it was. *)
Theorem prevented_event_is_ignored options context event h :
  props_onClick options = None ->
  defaultPrevented event h = true ->
  click options context event h = {| heap := h; trace := [] |}.
Proof.
  intros Hnone Hprev. rewrite click_split.
  unfold afterHandler, handlerCalls. by rewrite Hnone, Hprev.
Qed.

(** X4: an item without a value never calls [setValue], whatever its
    [setValueOnClick] option says; a [setValueOnClick] callback is consulted
    all the same on a click that is not default-prevented, before the value
    is looked at, and its effect on the heap stays. *)
Theorem no_value_never_selects options context event h :
  value options = None ->
  (forall v, CallSetValue v ∉ trace (click options context event h))
  /\ (forall f, setValueOnClick options = Some (Callback f) ->
        hideOnClick options = None ->
        defaultPrevented event (afterHandler options event h) = false ->
        click options context event h
        = {| heap := snd (f event (afterHandler options event h));
             trace := handlerCalls options |}).
Proof.
  intros Hv. split.
  - intros v Hin. rewrite click_split in Hin.
    destruct (defaultPrevented event _).
    { simpl in Hin. by apply handlerCalls_elem in Hin. }
    rewrite onClick_hide_trace in Hin.
    destruct (beforeHide_trace options context event h)
      as (calls & Ht & Hcalls).
    rewrite Ht in Hin.
    apply elem_of_app in Hin as [Hin|Hin].
    + apply elem_of_app in Hin as [Hin|Hin].
      * by apply handlerCalls_elem in Hin.
      * apply Hcalls in Hin as [_ (v' & Hv' & _)]. congruence.
    + destruct (fst (hideOnClickProp options event _));
        [|by apply elem_of_nil in Hin].
      destruct (state_ options context); [|by apply elem_of_nil in Hin].
      by apply list_elem_of_singleton in Hin.
  - intros f Hf Hhide Hprev. rewrite click_split, Hprev, beforeHide_run.
    unfold onClick_hide, onClick_setValue, bind, setValueOnClickProp,
      hideOnClickProp, setValueOnClick_, hideOnClick_.
    rewrite Hf, Hhide, Hv. simpl. unfold callback. simpl.
    destruct (f event (afterHandler options event h)) as [b h'].
    by destruct b.
Qed.

(** X5: a [hideOnClick] callback is consulted after [setValue] has been
    called, on the heap [setValue] left; [hide] follows iff it agrees. *)
Theorem hideOnClick_sees_setValue options context event h s (v : string)
    (f : MouseEvent -> Heap -> bool * Heap) :
  value options = Some v ->
  setValueOnClick_ options = Boolean true ->
  hideOnClick options = Some (Callback f) ->
  state_ options context = Some s ->
  defaultPrevented event (afterHandler options event h) = false ->
  let asked := f event (state_setValue s v (afterHandler options event h)) in
  click options context event h
  = if fst asked then
      {| heap := state_hide s (snd asked);
         trace := handlerCalls options ++ [CallSetValue v; CallHide] |}
    else
      {| heap := snd asked;
         trace := handlerCalls options ++ [CallSetValue v] |}.
Proof.
  intros Hv Hset Hhide Hs Hprev asked.
  rewrite click_split, Hprev, beforeHide_run.
  unfold onClick_hide, onClick_setValue, bind,
    setValueOnClickProp, hideOnClickProp, hideOnClick_.
  rewrite Hset, Hhide, Hv, Hs. simpl. unfold callback. simpl.
  fold asked. destruct asked as [[] h']; simpl;
    rewrite <- ?app_assoc; reflexivity.
Qed.

(** X8: [focusOnHover] defaults to [true]: when the option is not given the
    hover guard is just the [mounted] flag of the bound state (false when no
    state is bound), and it touches nothing. *)
Theorem default_hover_follows_mounted options context event (w : World) :
  focusOnHover options = None ->
  focusOnHoverGuard options context event w
  = (match state_ options context with
     | Some s => state_mounted s
     | None => false
     end, w).
Proof.
  intros Hnone.
  unfold focusOnHoverGuard, focusOnHoverProp, focusOnHover_, bind.
  rewrite Hnone. simpl. by destruct (state_ options context).
Qed.

(** X9: the descriptor does not depend on a [value] field the base record
    may already carry: it is overwritten before any transform sees it. *)
Theorem getItem_ignores_base_value options (item : Item) (x : JsValue) :
  getItem options (<["value" := x]> item) = getItem options item.
Proof.
  unfold getItem. by rewrite insert_insert_eq.
Qed.

(** X10: without a custom transform, building the descriptor of a descriptor
    changes nothing. *)
Theorem getItem_idempotent options (item : Item) :
  getItemProp options = None ->
  getItem options (getItem options item) = getItem options item.
Proof.
  intros Hnone. unfold getItem. rewrite Hnone. apply insert_insert_eq.
Qed.

(** X11: without a custom transform the descriptor has the fields of the
    base record and a [value] field, which is there even for a disabled item
    or an item without a value (holding [undefined]). *)
Theorem getItem_fields options (item : Item) :
  getItemProp options = None ->
  dom (getItem options item) = {["value"]} ∪ dom item.
Proof.
  intros Hnone. unfold getItem. rewrite Hnone. apply dom_insert_L.
Qed.

(** X12: two items bound to the same state that are both selected carry the
    same value: items with different values are never selected together. *)
Theorem selected_items_share_value (o1 o2 : SelectItemOptions)
    (c1 c2 : option SelectState) s :
  state_ o1 c1 = Some s ->
  state_ o2 c2 = Some s ->
  isSelected o1 c1 = true ->
  isSelected o2 c2 = true ->
  value o1 = value o2.
Proof.
  unfold isSelected, strictEquals. intros -> -> H1 H2. simpl in *.
  apply andb_true_iff in H1 as [_ H1], H2 as [_ H2].
  apply bool_decide_eq_true_1 in H1, H2.
  destruct (value o1), (value o2); simpl in *; congruence.
Qed.

(** X13: the properties the hook sets.  A [role] key passed by the caller
    wins, even when it holds [undefined]; when no such key is passed and a
    state is bound, the role is the one matching the popup role of the
    state's content element.  Likewise a [children] key of the caller wins,
    and the children are the configured value when no such key is passed. *)
Theorem role_and_children options context :
  (forall r, props_role options = Some r ->
     result_role (useSelectItem options context) = r)
  /\ (forall s, props_role options = None ->
        state_ options context = Some s ->
        result_role (useSelectItem options context)
        = match getPopupRole (state_contentElement s) with
          | Some HasPopupListbox => Some "option"
          | Some HasPopupTree => Some "treeitem"
          | Some HasPopupGrid => Some "gridcell"
          | _ => None
          end)
  /\ (forall c, props_children options = Some c ->
        result_children (useSelectItem options context) = c)
  /\ (props_children options = None ->
      result_children (useSelectItem options context) = value options).
Proof.
  split; [|split; [|split]]; simpl.
  - by intros r ->.
  - intros s -> ->. simpl. unfold getItemRole.
    destruct (getPopupRole (state_contentElement s)) as [[[]| | | | | | |]|];
      reflexivity.
  - by intros c ->.
  - by intros ->.
Qed.

End Further.

(** ** The further properties at the sample items *)

Lemma click_static_options_witness :
  setValueOnClick_ (H := Sample.host) Sample.sticky = Boolean true
  /\ hideOnClick_ (H := Sample.host) Sample.sticky = Boolean false
  /\ click (H := Sample.host) Sample.sticky None tt Sample.h0
     = Sample.world (Sample.mk false "Apple" true) [CallSetValue "Apple"].
Proof.
  split; [reflexivity|]. split; [reflexivity|].
  exact (click_static_options (H := Sample.host) Sample.sticky None tt
           Sample.h0 (Sample.select "Orange") true false
           eq_refl eq_refl eq_refl eq_refl).
Defined.

Lemma prevented_event_is_ignored_witness :
  defaultPrevented (Host := Sample.host) tt Sample.h1 = true
  /\ click (H := Sample.host) Sample.apple None tt Sample.h1
     = Sample.world Sample.h1 [].
Proof.
  split; [reflexivity|].
  exact (prevented_event_is_ignored (H := Sample.host) Sample.apple None tt
           Sample.h1 eq_refl eq_refl).
Defined.

Lemma no_value_never_selects_witness :
  value (H := Sample.host) Sample.eager = None
  /\ (CallSetValue "Apple"
       ∉ trace (click (H := Sample.host) Sample.eager None tt Sample.h0))
  /\ click (H := Sample.host) Sample.eager None tt Sample.h0
     = Sample.world (Sample.mk false "" false) [].
Proof.
  split; [reflexivity|].
  destruct (no_value_never_selects (H := Sample.host) Sample.eager None tt
              Sample.h0 eq_refl) as [Hnever Hasked].
  split; [exact (Hnever "Apple")|].
  exact (Hasked Sample.closing eq_refl eq_refl eq_refl).
Defined.

Lemma hideOnClick_sees_setValue_witness :
  hideOnClick (H := Sample.host) Sample.confirming
  = Some (Callback Sample.onceApple)
  /\ click (H := Sample.host) Sample.confirming None tt Sample.h0
     = Sample.world (Sample.mk false "Apple" false)
         [CallSetValue "Apple"; CallHide].
Proof.
  split; [reflexivity|].
  exact (hideOnClick_sees_setValue (H := Sample.host) Sample.confirming None
           tt Sample.h0 (Sample.select "Orange") "Apple" Sample.onceApple
           eq_refl eq_refl eq_refl eq_refl eq_refl).
Defined.

Lemma default_hover_follows_mounted_witness :
  focusOnHover (H := Sample.host) Sample.stale = None
  /\ focusOnHoverGuard (H := Sample.host) Sample.stale None tt
       (Sample.world Sample.h0 [])
     = (false, Sample.world Sample.h0 [])
  /\ focusOnHoverGuard (H := Sample.host) Sample.apple None tt
       (Sample.world Sample.h0 [])
     = (true, Sample.world Sample.h0 []).
Proof.
  split; [reflexivity|]. split.
  - exact (default_hover_follows_mounted (H := Sample.host) Sample.stale None
             tt (Sample.world Sample.h0 []) eq_refl).
  - exact (default_hover_follows_mounted (H := Sample.host) Sample.apple None
             tt (Sample.world Sample.h0 []) eq_refl).
Defined.

Lemma getItem_idempotent_witness :
  getItemProp (H := Sample.host) Sample.orange = None
  /\ getItem (H := Sample.host) Sample.orange
       (getItem (H := Sample.host) Sample.orange Sample.base)
     = getItem (H := Sample.host) Sample.orange Sample.base.
Proof.
  split; [reflexivity|].
  exact (getItem_idempotent (H := Sample.host) Sample.orange Sample.base
           eq_refl).
Defined.

Lemma getItem_fields_witness :
  getItemProp (H := Sample.host) Sample.action = None
  /\ dom (getItem (H := Sample.host) Sample.action Sample.base)
     = {["value"]} ∪ dom Sample.base.
Proof.
  split; [reflexivity|].
  exact (getItem_fields (H := Sample.host) Sample.action Sample.base eq_refl).
Defined.

Lemma selected_items_share_value_witness :
  isSelected (H := Sample.host) Sample.orange None = true
  /\ isSelected (H := Sample.host) Sample.disabledOrange None = true
  /\ value (H := Sample.host) Sample.orange
     = value (H := Sample.host) Sample.disabledOrange.
Proof.
  split; [reflexivity|]. split; [reflexivity|].
  exact (selected_items_share_value (H := Sample.host) Sample.orange
           Sample.disabledOrange None None (Sample.select "Orange")
           eq_refl eq_refl eq_refl eq_refl).
Defined.

Lemma role_and_children_witness :
  (props_role (H := Sample.host) Sample.apple = None
   /\ result_role (useSelectItem (H := Sample.host) Sample.apple None)
      = Some "option"
   /\ result_children (useSelectItem (H := Sample.host) Sample.apple None)
      = Some "Apple")
  /\ (props_role (H := Sample.host) Sample.bare = Some None
      /\ result_role (useSelectItem (H := Sample.host) Sample.bare None)
         = None
      /\ result_children (useSelectItem (H := Sample.host) Sample.bare None)
         = None).
Proof.
  destruct (role_and_children (H := Sample.host) Sample.apple None)
    as (_ & Hrole & _ & Hchildren).
  destruct (role_and_children (H := Sample.host) Sample.bare None)
    as (Hown & _ & Hkids & _).
  split; (split; [reflexivity|split]).
  - exact (Hrole (Sample.select "Orange") eq_refl eq_refl).
  - exact (Hchildren eq_refl).
  - exact (Hown None eq_refl).
  - exact (Hkids None eq_refl).
Defined.
